(** * closure/examples/main.py: the demo index handler

    A shallow embedding of [MainHandler] (its [render_template] helper and its
    [get] method) and of the route table built by [main], together with the
    properties of the handler that its specification states.

    The handler talks to three collaborators that live outside the
    repository: the [os.path] module, the template engine
    ([google.appengine.ext.webapp.template.render]) and the URL matcher of
    [webapp.WSGIApplication].  Each is an interface here (a type class).  The
    theorems about the handler hold for every path module and every engine;
    models of [posixpath] and of the framework's anchored patterns say what
    the handler does under the libraries it is deployed with. *)

From Stdlib Require Import Ascii.
From stdpp Require Import base strings list gmap.

Local Open Scope string_scope.
Set Warnings "-register-all".

(** ** Python values *)

(** The values that flow through the handler: [None], booleans, integers,
    strings, lists and dictionaries with string keys. *)
Inductive pyval : Type :=
  | PyNone
  | PyBool (b : bool)
  | PyInt (n : Z)
  | PyStr (s : string)
  | PyList (l : list pyval)
  | PyDict (d : gmap string pyval).

(** Python's truth value testing, as used by [if not template_values]:
    [None], [False], zero and every empty container are false. *)
Definition truthy (v : pyval) : bool :=
  match v with
  | PyNone => false
  | PyBool b => b
  | PyInt n => negb (n =? 0)%Z
  | PyStr s => negb (String.eqb s "")
  | PyList l => match l with [] => false | _ :: _ => true end
  | PyDict d => negb (bool_decide (size d = 0))
  end.

(** An exception: its class name and its message. *)
Inductive pyexn : Type :=
  | PyExn (cls : string) (msg : string).

(** The outcome of a call: it returns a value or raises. *)
Inductive outcome (A : Type) : Type :=
  | Returned (v : A)
  | Raised (e : pyexn).
Arguments Returned {A} v.
Arguments Raised {A} e.

(** ** Collaborators *)

(** The two functions of [os.path] that the handler calls.
    [os_path_join a p] is [os.path.join(a, *p)]. *)
Class OsPath := {
  os_path_dirname : string → string;
  os_path_join : string → list string → string
}.

(** [template.render(path, template_values)]: returns the rendered page or
    raises (a missing or malformed template). *)
Class TemplateEngine := {
  template_render : string → pyval → outcome string
}.

(** ** The world a request runs in *)

(** Process-wide state, shared by all requests: the module global
    [__file__] and the current working directory. *)
Record Process := {
  module_file : string;
  cwd : string
}.

Record Request := {
  req_method : string;
  req_path : string;
  req_query_string : string;
  req_headers : list (string * string);
  req_body : string
}.

(** [response.out] is a stream; [out] lists the chunks written to it, oldest
    first. *)
Record Response := {
  status : nat;
  out : list string
}.

(** A [webapp.RequestHandler] instance: [self.request], [self.response]. *)
Record Handler := {
  request : Request;
  response : Response
}.

(** [engine_calls] records the calls made to [template.render], oldest
    first, with the arguments of each. *)
Record World := {
  process : Process;
  self : Handler;
  engine_calls : list (string * pyval)
}.

(** The bytes of the response body: the chunks written, concatenated. *)
Definition response_body (w : World) : string :=
  String.concat "" (out (response (self w))).

(** ** A state and exception monad *)

(** A computation reads and updates the world and returns or raises.  As in
    Python, raising does not undo the updates made before. *)
Definition M (A : Type) : Type := World → outcome A * World.

Definition ret {A} (v : A) : M A := λ w, (Returned v, w).

Definition raise {A} (e : pyexn) : M A := λ w, (Raised e, w).

Definition bind {A B} (k : A → M B) (m : M A) : M B :=
  λ w, match m w with
       | (Returned v, w') => k v w'
       | (Raised e, w') => (Raised e, w')
       end.

#[global] Instance M_ret : MRet M := @ret.
#[global] Instance M_bind : MBind M := @bind.

(** Reading the module global [__file__]. *)
Definition get_module_file : M string :=
  λ w, (Returned (module_file (process w)), w).

(** [self.response.out.write(s)]. *)
Definition response_out_write (s : string) : M unit :=
  λ w,
    let h := self w in
    let r := response h in
    (Returned tt,
     {| process := process w;
        self := {| request := request h;
                   response := {| status := status r; out := out r ++ [s] |} |};
        engine_calls := engine_calls w |}).

(** A call of [template.render(path, template_values)]. *)
Definition call_template_render `{TemplateEngine}
    (path : string) (template_values : pyval) : M string :=
  λ w,
    (template_render path template_values,
     {| process := process w;
        self := self w;
        engine_calls := engine_calls w ++ [(path, template_values)] |}).

(** ** MainHandler *)

Section MainHandler.
Context `{OsPath} `{TemplateEngine}.

(** The path that [render_template] computes for a template file. *)
Definition template_path (p : Process) (template_file : string) : string :=
  os_path_join (os_path_dirname (module_file p)) ["templates"; template_file].

(** The value that [render_template] forwards to the engine. *)
Definition forwarded_values (template_values : pyval) : pyval :=
  if negb (truthy template_values) then PyList [] else template_values.

(** [MainHandler.render_template(self, template_file, template_values=None)].
    [None] for [template_values] is a call without that argument.  The
    method has no [return] statement: it returns [None]. *)
Definition render_template (template_file : string)
    (template_values : option pyval) : M pyval :=
  let template_values := default PyNone template_values in
  let template_values :=
    if negb (truthy template_values) then PyList [] else template_values in
  file ← get_module_file;
  let path :=
    os_path_join (os_path_dirname file) ["templates"; template_file] in
  rendered ← call_template_render path template_values;
  response_out_write rendered;;
  mret PyNone.

(** The list that [get] builds. *)
Definition demos : list pyval :=
  [ PyDict {[ "title" := PyStr "Component"; "template" := PyStr "component.html" ]};
    PyDict {[ "title" := PyStr "Button"; "template" := PyStr "buttons.html" ]};
    PyDict {[ "title" := PyStr "Link"; "template" := PyStr "link.html" ]};
    PyDict {[ "title" := PyStr "Container"; "template" := PyStr "containers.html" ]};
    PyDict {[ "title" := PyStr "Grid"; "template" := PyStr "grid.html" ]};
    PyDict {[ "title" := PyStr "Lightbox"; "template" := PyStr "lightbox.html" ]};
    PyDict {[ "title" := PyStr "Tab Container"; "template" := PyStr "tabcontainer.html" ]};
    PyDict {[ "title" := PyStr "AJAX"; "template" := PyStr "ajax.html" ]} ].

(** [MainHandler.get(self)]. *)
Definition get : M pyval :=
  render_template "main.html" (Some (PyDict {[ "demos" := PyList demos ]})).

End MainHandler.

(** ** The application built by [main] *)

(** The handler classes of the module. *)
Inductive handler_class : Type :=
  | MainHandler.

(** [webapp.WSGIApplication(url_mapping, debug=...)]. *)
Record WSGIApplication := {
  url_mapping : list (string * handler_class);
  debug : bool
}.

(** The [application] of [main]. *)
Definition application : WSGIApplication :=
  {| url_mapping := [("/", MainHandler)]; debug := true |}.

(** The framework compiles each pattern of the mapping to an anchored regular
    expression; [url_match pattern path] is whether the compiled pattern
    matches the request path. *)
Class UrlMatcher := {
  url_match : string → string → bool
}.

(** Route selection of the framework: the handler class of the first pattern
    that matches, in the order of the mapping; [None] is a 404. *)
Fixpoint find_handler `{UrlMatcher}
    (mapping : list (string * handler_class)) (path : string)
    : option handler_class :=
  match mapping with
  | [] => None
  | (regexp, cls) :: rest =>
      if url_match regexp path then Some cls else find_handler rest path
  end.

(** ** What the template receives *)

(** The (title, template file) pair of a demo entry. *)
Definition demo_pair (v : pyval) : option (string * string) :=
  match v with
  | PyDict d =>
      match d !! "title", d !! "template" with
      | Some (PyStr t), Some (PyStr f) => Some (t, f)
      | _, _ => None
      end
  | _ => None
  end.

Definition nonempty_str (v : option pyval) : bool :=
  match v with
  | Some (PyStr s) => negb (String.eqb s "")
  | _ => false
  end.

(** A record with exactly the attributes [k1] and [k2], both non-empty
    strings. *)
Definition record_of (k1 k2 : string) (v : pyval) : bool :=
  match v with
  | PyDict d =>
      bool_decide (dom d = {[ k1; k2 ]})
      && nonempty_str (d !! k1) && nonempty_str (d !! k2)
  | _ => false
  end.

(** The same world with another working directory, another request. *)
Definition with_cwd (c : string) (w : World) : World :=
  {| process := {| module_file := module_file (process w); cwd := c |};
     self := self w;
     engine_calls := engine_calls w |}.


(** The world after the engine has been called with [path] and [vals]. *)
Definition called (path : string) (vals : pyval) (w : World) : World :=
  {| process := process w;
     self := self w;
     engine_calls := engine_calls w ++ [(path, vals)] |}.

(** The world after [s] has been written to the response. *)
Definition written (s : string) (w : World) : World :=
  {| process := process w;
     self := {| request := request (self w);
                response := {| status := status (response (self w));
                               out := out (response (self w)) ++ [s] |} |};
     engine_calls := engine_calls w |}.

(** ** Implementations of the collaborators, for the examples *)

Module Posix.

Definition is_slash (c : ascii) : bool := Ascii.eqb c "/"%char.

Definition startswith_slash (s : string) : bool :=
  match s with
  | String c _ => is_slash c
  | EmptyString => false
  end.

Fixpoint endswith_slash (s : string) : bool :=
  match s with
  | EmptyString => false
  | String c EmptyString => is_slash c
  | String _ s' => endswith_slash s'
  end.

(** One round of the loop of [posixpath.join]. *)
Definition join_step (path b : string) : string :=
  if startswith_slash b then b
  else if String.eqb path "" || endswith_slash path then path ++ b
  else path ++ "/" ++ b.

(** [posixpath.join(a, *p)]. *)
Definition join (a : string) (p : list string) : string :=
  fold_left join_step p a.

Fixpoint skip_while (f : ascii → bool) (l : list ascii) : list ascii :=
  match l with
  | [] => []
  | c :: l' => if f c then skip_while f l' else l
  end.

(** [posixpath.dirname(p)]: the part up to the last slash, without its
    trailing slashes unless it consists of slashes only. *)
Definition dirname (p : string) : string :=
  let head :=
    rev (skip_while (λ c, negb (is_slash c)) (rev (String.list_ascii_of_string p))) in
  String.string_of_list_ascii
    (if negb (forallb is_slash head)
     then rev (skip_while is_slash (rev head))
     else head).

Definition os_path : OsPath :=
  {| os_path_dirname := dirname; os_path_join := join |}.

End Posix.

(** An engine that renders every template to its path between brackets. *)
Definition path_engine : TemplateEngine :=
  {| template_render := λ path _, Returned ("[" ++ path ++ "]") |}.

(** An engine that finds no template. *)
Definition missing_engine : TemplateEngine :=
  {| template_render := λ path _, Raised (PyExn "TemplateDoesNotExist" path) |}.

(** An engine that echoes the titles of the demos it receives, one per
    line. *)
Definition title_of (v : pyval) : string :=
  match demo_pair v with
  | Some (t, _) => t
  | None => "?"
  end.

Definition titles_engine : TemplateEngine :=
  {| template_render := λ _ vals,
       match vals with
       | PyDict d =>
           match d !! "demos" with
           | Some (PyList l) => Returned (String.concat ";" (title_of <$> l))
           | _ => Raised (PyExn "VariableDoesNotExist" "demos")
           end
       | _ => Raised (PyExn "VariableDoesNotExist" "demos")
       end |}.

(** An engine that renders [grid.html] and finds no other template. *)
Definition grid_engine : TemplateEngine :=
  {| template_render := λ path _,
       if String.eqb path "/srv/app/closure/examples/templates/grid.html"
       then Returned "<grid>"
       else Raised (PyExn "TemplateDoesNotExist" path) |}.

(** The pattern matching of [webapp.WSGIApplication], for patterns of
    ordinary characters such as [/]. *)
Module Webapp.

Definition line_feed : ascii := "010"%char.

(** The characters that have a meaning of their own in a regular
    expression. *)
Definition is_special (c : ascii) : bool :=
  existsb (Ascii.eqb c) (String.list_ascii_of_string ".^$*+?{}[]\|()").

Definition startswith_caret (s : string) : bool :=
  match s with
  | String c _ => Ascii.eqb c "^"%char
  | EmptyString => false
  end.

Fixpoint endswith_dollar (s : string) : bool :=
  match s with
  | EmptyString => false
  | String c EmptyString => Ascii.eqb c "$"%char
  | String _ s' => endswith_dollar s'
  end.

(** [WSGIApplication._init_url_mappings]: a pattern that does not start
    with [^] gets one in front, a pattern that does not end with [$] gets
    one at the end; the result is what is compiled. *)
Definition anchored (regexp : string) : string :=
  let regexp := if startswith_caret regexp then regexp else "^" ++ regexp in
  if endswith_dollar regexp then regexp else regexp ++ "$".

(** Where [$] matches: at the end of the subject, and before a line feed
    that is its last character. *)
Definition at_end (subject : list ascii) : bool :=
  match subject with
  | [] => true
  | [c] => Ascii.eqb c line_feed
  | _ => false
  end.

(** Matching what follows the [^] of a pattern against the subject from its
    start: ordinary characters match themselves, a closing [$] matches
    [at_end].  Any other use of a special character is outside the patterns
    modelled and gives no match. *)
Fixpoint match_here (pattern subject : list ascii) : bool :=
  match pattern with
  | [] => true
  | c :: pattern' =>
      if Ascii.eqb c "$"%char then
        match pattern' with
        | [] => at_end subject
        | _ :: _ => false
        end
      else if is_special c then false
      else
        match subject with
        | c' :: subject' => Ascii.eqb c c' && match_here pattern' subject'
        | [] => false
        end
  end.

(** [re.compile(pattern).match(subject)], as a truth value. *)
Definition re_match (pattern subject : string) : bool :=
  match String.list_ascii_of_string pattern with
  | c :: pattern' =>
      Ascii.eqb c "^"%char
      && match_here pattern' (String.list_ascii_of_string subject)
  | [] => false
  end.

(** The matcher of the application: the pattern of the mapping is anchored,
    compiled and matched against [request.path]. *)
Definition matcher : UrlMatcher :=
  {| url_match := λ regexp path, re_match (anchored regexp) path |}.


End Webapp.

(** A deployment under [/srv/app], and a request for [/]. *)
Definition root_request : Request :=
  {| req_method := "GET"; req_path := "/"; req_query_string := "";
     req_headers := []; req_body := "" |}.

Definition fresh_world (r : Request) : World :=
  {| process := {| module_file := "/srv/app/closure/examples/main.py";
                   cwd := "/srv/app" |};
     self := {| request := r; response := {| status := 200; out := [] |} |};
     engine_calls := [] |}.

(** A second world: another request, another working directory, and an
    engine that has been called before. *)
Definition other_world : World :=
  {| process := {| module_file := "/srv/app/closure/examples/main.py";
                   cwd := "/tmp" |};
     self := {| request := {| req_method := "GET"; req_path := "/";
                              req_query_string := "debug=1";
                              req_headers := [("Accept", "text/html")];
                              req_body := "ignored" |};
                response := {| status := 200; out := [] |} |};
     engine_calls := [("/srv/app/closure/examples/templates/main.html",
                       PyList [])] |}.

(** Whether a string holds a slash. *)
Definition has_slash (s : string) : bool :=
  existsb Posix.is_slash (String.list_ascii_of_string s).

(** What a call of the engine adds to the response body: its output, or
    nothing when it raises. *)
Definition output_of (o : outcome string) : string :=
  match o with
  | Returned s => s
  | Raised _ => ""
  end.

(** A world of the module started as a script, by its bare file name. *)
Definition script_world : World :=
  {| process := {| module_file := "main.py";
                   cwd := "/srv/app/closure/examples" |};
     self := {| request := root_request;
                response := {| status := 200; out := [] |} |};
     engine_calls := [] |}.

(** * Properties *)

(** ** Truth values *)

Lemma truthy_dict_empty : truthy (PyDict ∅) = false.
Proof. reflexivity. Qed.

Lemma truthy_dict_insert k v (d : gmap string pyval) :
  truthy (PyDict (<[k:=v]> d)) = true.
Proof.
  simpl. rewrite bool_decide_eq_false_2; [done|].
  intros Hsz. apply map_size_empty_inv in Hsz.
  by apply insert_non_empty in Hsz.
Qed.

Lemma forwarded_values_falsy v :
  truthy v = false → forwarded_values v = PyList [].
Proof. unfold forwarded_values. by intros ->. Qed.

Lemma forwarded_values_truthy v :
  truthy v = true → forwarded_values v = v.
Proof. unfold forwarded_values. by intros ->. Qed.

(** ** Running the handler *)

Section Run.
Context {ospath : OsPath} {engine : TemplateEngine}.

(** [render_template] step by step: one call of the engine, then, if the
    engine returned, one write. *)
Lemma render_template_run template_file template_values w :
  let path := template_path (process w) template_file in
  let vals := forwarded_values (default PyNone template_values) in
  render_template template_file template_values w =
    match template_render path vals with
    | Returned s => (Returned PyNone, written s (called path vals w))
    | Raised e => (Raised e, called path vals w)
    end.
Proof.
  unfold render_template, template_path, forwarded_values; simpl.
  unfold mbind, M_bind, bind, get_module_file, call_template_render; simpl.
  by destruct (template_render _ _).
Qed.

Lemma get_values_truthy :
  forwarded_values (PyDict {[ "demos" := PyList demos ]})
  = PyDict {[ "demos" := PyList demos ]}.
Proof. apply forwarded_values_truthy, (truthy_dict_insert _ _ ∅). Qed.

Lemma get_run w :
  let path := template_path (process w) "main.html" in
  let vals := PyDict {[ "demos" := PyList demos ]} in
  get w =
    match template_render path vals with
    | Returned s => (Returned PyNone, written s (called path vals w))
    | Raised e => (Raised e, called path vals w)
    end.
Proof.
  unfold get. rewrite render_template_run. simpl default.
  by rewrite get_values_truthy.
Qed.

End Run.

(** ** The demo list *)

Section Demos.
Context {ospath : OsPath} {engine : TemplateEngine}.

(** C1: whatever the request, [get] hands the engine a demo list of exactly
    eight entries whose (title, template file) pairs are, in this order,
    Component, Button, Link, Container, Grid, Lightbox, Tab Container and
    AJAX with their template files. *)
Theorem get_demo_list w :
  ∃ path l,
    engine_calls (get w).2
      = (engine_calls w ++ [(path, PyDict {[ "demos" := PyList l ]})])%list
    ∧ length l = 8
    ∧ mapM demo_pair l
      = Some [ ("Component", "component.html");
               ("Button", "buttons.html");
               ("Link", "link.html");
               ("Container", "containers.html");
               ("Grid", "grid.html");
               ("Lightbox", "lightbox.html");
               ("Tab Container", "tabcontainer.html");
               ("AJAX", "ajax.html") ].
Proof.
  exists (template_path (process w) "main.html"), demos.
  split; [|split; [reflexivity | by vm_compute]].
  rewrite get_run. by destruct (template_render _ _).
Qed.

(** C4, as amended: every record of the sequence bound to [demos] has
    exactly the two attributes [title] and [template], both non-empty
    strings. *)
Theorem demos_records w :
  ∃ path d l,
    last (engine_calls (get w).2) = Some (path, PyDict d)
    ∧ d !! "demos" = Some (PyList l)
    ∧ Forall (λ v, record_of "title" "template" v = true) l.
Proof.
  exists (template_path (process w) "main.html"),
         {[ "demos" := PyList demos ]}, demos.
  split; [|split].
  - rewrite get_run. destruct (template_render _ _); simpl; apply last_snoc.
  - apply lookup_singleton_eq.
  - apply Forall_forall. intros v Hv.
    assert (Hall : forallb (record_of "title" "template") demos = true)
      by (by vm_compute).
    rewrite forallb_forall in Hall. apply Hall.
    by apply list_elem_of_In.
Qed.

End Demos.

(** C4, as stated, fails: the records of the demo list have no attribute
    [templateFile]; the second attribute is named [template]. *)
Lemma demos_records_templateFile_fails :
  ¬ Forall (λ v, record_of "title" "templateFile" v = true) demos.
Proof.
  intros Hall. apply Forall_cons_1 in Hall as [Hhd _].
  by vm_compute in Hhd.
Qed.

(** ** The render helper *)

Section RenderTemplate.
Context {ospath : OsPath} {engine : TemplateEngine}.

(** C10: for every falsy [template_values] (the omitted argument, [None],
    and also an empty mapping, an empty list, an empty string, zero or
    [False] passed explicitly) the engine receives an empty list. *)
Theorem falsy_values_become_empty_list w template_file template_values :
  truthy (default PyNone template_values) = false →
  engine_calls (render_template template_file template_values w).2
  = (engine_calls w
     ++ [(template_path (process w) template_file, PyList [])])%list.
Proof.
  intros Hfalsy. rewrite render_template_run.
  rewrite (forwarded_values_falsy _ Hfalsy).
  by destruct (template_render _ _).
Qed.

(** What the code does at a call without [template_values]: it is the same
    computation as a call with an empty mapping, it raises only when the
    engine raises, with the engine's exception, and the engine is handed an
    empty list. *)
Lemma default_values_as_empty_mapping w template_file :
  render_template template_file None w
  = render_template template_file (Some (PyDict ∅)) w
  ∧ engine_calls (render_template template_file None w).2
    = (engine_calls w
       ++ [(template_path (process w) template_file, PyList [])])%list
  ∧ (∀ e, (render_template template_file None w).1 = Raised e
          ↔ template_render (template_path (process w) template_file)
                            (PyList []) = Raised e).
Proof.
  rewrite !render_template_run. simpl default.
  rewrite !forwarded_values_falsy by reflexivity.
  destruct (template_render _ _) as [s|e0]; simpl.
  - repeat split; congruence.
  - repeat split; congruence.
Qed.

(** C3, as amended: when the engine returns, the helper writes the
    engine's output verbatim to the response, as one chunk after what was
    written before, and itself returns [None]. *)
Theorem render_template_writes_output w template_file template_values s :
  template_render (template_path (process w) template_file)
                  (forwarded_values (default PyNone template_values))
  = Returned s →
  (render_template template_file template_values w).1 = Returned PyNone
  ∧ out (response (self (render_template template_file template_values w).2))
    = (out (response (self w)) ++ [s])%list.
Proof.
  intros Hs. rewrite render_template_run, Hs. by split.
Qed.

(** C5: the path handed to the engine is the join of the directory of the
    handler's source file ([__file__]), ["templates"] and the file name,
    whatever the working directory of the process is. *)
Theorem template_path_from_module_dir w c template_file template_values :
  fst <$> last (engine_calls
                  (render_template template_file template_values
                     (with_cwd c w)).2)
  = Some (os_path_join (os_path_dirname (module_file (process w)))
                       ["templates"; template_file]).
Proof.
  rewrite render_template_run.
  destruct (template_render _ _); simpl; by rewrite last_snoc.
Qed.

End RenderTemplate.

(** C2: the code at a call without [template_values].  The value handed to
    the engine is the empty list of line 10, which is not the empty mapping
    that the claim asks for and that the only caller of the helper, line 25,
    would pass. *)
Theorem default_values_not_a_mapping :
  snd <$> last (engine_calls
                  (@render_template Posix.os_path path_engine
                     "main.html" None (fresh_world root_request)).2)
  = Some (PyList [])
  ∧ PyList [] ≠ PyDict ∅.
Proof. split; [by vm_compute | discriminate]. Qed.

(** C3, as stated, fails: the engine returns a page and the helper returns
    [None], not that page. *)
Lemma render_template_returns_none :
  ∃ s,
    @template_render path_engine
      "/srv/app/closure/examples/templates/main.html" (PyList [])
    = Returned s
    ∧ (@render_template Posix.os_path path_engine
         "main.html" None (fresh_world root_request)).1
      ≠ Returned (PyStr s).
Proof. eexists. split; [reflexivity | by vm_compute]. Qed.

(** ** The get operation *)

Section Get.
Context {ospath : OsPath} {engine : TemplateEngine}.

(** C6: [get] calls the engine exactly once, for the template
    ["main.html"] of the templates directory, with a mapping whose single
    name is [demos], bound to the demo list; what the engine returns is
    written to the response body, after what the body held before. *)
Theorem get_renders_main_once w :
  ∃ d,
    engine_calls (get w).2
    = (engine_calls w
       ++ [(template_path (process w) "main.html", PyDict d)])%list
    ∧ dom d = {[ "demos" ]}
    ∧ d !! "demos" = Some (PyList demos)
    ∧ out (response (self (get w).2))
      = (out (response (self w))
         ++ match template_render (template_path (process w) "main.html")
                                  (PyDict d) with
            | Returned s => [s]
            | Raised _ => []
            end)%list.
Proof.
  exists {[ "demos" := PyList demos ]}.
  rewrite get_run.
  destruct (template_render _ _); simpl;
    rewrite ?app_nil_r, dom_singleton_L, lookup_singleton_eq; done.
Qed.

(** C7: when the engine's render call raises, the render helper and [get]
    raise that same exception; the handler object, and so the response
    body, is as it was before the call. *)
Theorem engine_failure_propagates w e :
  (∀ template_file template_values,
     template_render (template_path (process w) template_file)
                     (forwarded_values (default PyNone template_values))
     = Raised e →
     let r := render_template template_file template_values w in
     r.1 = Raised e ∧ self r.2 = self w
     ∧ response_body r.2 = response_body w)
  ∧ (template_render (template_path (process w) "main.html")
                     (PyDict {[ "demos" := PyList demos ]})
     = Raised e →
     (get w).1 = Raised e ∧ self (get w).2 = self w
     ∧ response_body (get w).2 = response_body w).
Proof.
  split.
  - intros tf tv He r. subst r. rewrite render_template_run, He. done.
  - intros He. rewrite get_run, He. done.
Qed.

(** C8: two invocations of [get] under the same deployment (the same
    [__file__]) and with the same response so far end alike, return or
    exception, and leave the same response, whatever the two requests and
    the rest of the two worlds are; the process-wide state and the request
    are left as they were. *)
Theorem get_deterministic_stateless w1 w2 :
  module_file (process w1) = module_file (process w2) →
  response (self w1) = response (self w2) →
  (get w1).1 = (get w2).1
  ∧ response (self (get w1).2) = response (self (get w2).2)
  ∧ response_body (get w1).2 = response_body (get w2).2
  ∧ process (get w1).2 = process w1
  ∧ request (self (get w1).2) = request (self w1).
Proof.
  intros Hfile Hresp. rewrite !get_run.
  unfold template_path, response_body. rewrite Hfile.
  destruct (template_render _ _); simpl; by rewrite Hresp.
Qed.

End Get.

(** ** Routing *)






Section Routing.
Context {ospath : OsPath} {engine : TemplateEngine}.


End Routing.

(** ** The handler at work on a deployment *)

Example posix_template_path :
  @template_path Posix.os_path (process (fresh_world root_request)) "main.html"
  = "/srv/app/closure/examples/templates/main.html".
Proof. reflexivity. Qed.

(** [posixpath.join] keeps a relative directory relative and lets an
    absolute file name replace what precedes it. *)
Example posix_join_relative :
  Posix.join (Posix.dirname "main.py") ["templates"; "main.html"]
  = "templates/main.html".
Proof. reflexivity. Qed.

Example posix_join_absolute :
  Posix.join "/srv/app" ["templates"; "/etc/motd"] = "/etc/motd".
Proof. reflexivity. Qed.

(** With an engine that echoes the titles it receives, the response body
    lists the eight titles in order. *)
Example get_echoes_titles :
  response_body (@get Posix.os_path titles_engine (fresh_world root_request)).2
  = "Component;Button;Link;Container;Grid;Lightbox;Tab Container;AJAX".
Proof. by vm_compute. Qed.

Lemma falsy_values_become_empty_list_witness :
  truthy (default PyNone (Some (PyDict ∅))) = false
  ∧ engine_calls
      (@render_template Posix.os_path path_engine "grid.html"
         (Some (PyDict ∅)) (fresh_world root_request)).2
    = [("/srv/app/closure/examples/templates/grid.html", PyList [])].
Proof.
  split; [reflexivity|].
  apply (@falsy_values_become_empty_list Posix.os_path path_engine
           (fresh_world root_request) "grid.html" (Some (PyDict ∅))).
  reflexivity.
Defined.

Lemma render_template_writes_output_witness :
  @template_render path_engine
    (@template_path Posix.os_path (process (fresh_world root_request))
       "grid.html")
    (forwarded_values (default PyNone None))
  = Returned "[/srv/app/closure/examples/templates/grid.html]"
  ∧ (@render_template Posix.os_path path_engine "grid.html" None
       (fresh_world root_request)).1 = Returned PyNone
  ∧ out (response (self
      (@render_template Posix.os_path path_engine "grid.html" None
         (fresh_world root_request)).2))
    = ["[/srv/app/closure/examples/templates/grid.html]"].
Proof.
  split; [reflexivity|].
  apply (@render_template_writes_output Posix.os_path path_engine
           (fresh_world root_request) "grid.html" None).
  reflexivity.
Defined.

Lemma engine_failure_propagates_witness :
  let w := fresh_world root_request in
  let e := PyExn "TemplateDoesNotExist"
             "/srv/app/closure/examples/templates/main.html" in
  @template_render missing_engine
    (@template_path Posix.os_path (process w) "main.html")
    (forwarded_values (default PyNone None)) = Raised e
  ∧ @template_render missing_engine
      (@template_path Posix.os_path (process w) "main.html")
      (PyDict {[ "demos" := PyList demos ]}) = Raised e
  ∧ (@render_template Posix.os_path missing_engine "main.html" None w).1
    = Raised e
  ∧ (@get Posix.os_path missing_engine w).1 = Raised e
  ∧ response_body (@get Posix.os_path missing_engine w).2 = "".
Proof.
  intros w e.
  destruct (@engine_failure_propagates Posix.os_path missing_engine w e)
    as [Hhelper Hget].
  split; [reflexivity|]. split; [reflexivity|].
  destruct (Hhelper "main.html" None) as (Hr & _ & _); [reflexivity|].
  destruct Hget as (Hg & _ & Hbody); [reflexivity|].
  split; [exact Hr|]. split; [exact Hg|]. exact Hbody.
Defined.

Lemma get_deterministic_stateless_witness :
  let w1 := fresh_world root_request in
  let w2 := other_world in
  module_file (process w1) = module_file (process w2)
  ∧ response (self w1) = response (self w2)
  ∧ (@get Posix.os_path titles_engine w1).1
    = (@get Posix.os_path titles_engine w2).1
  ∧ response_body (@get Posix.os_path titles_engine w1).2
    = response_body (@get Posix.os_path titles_engine w2).2.
Proof.
  intros w1 w2.
  split; [reflexivity|]. split; [reflexivity|].
  destruct (@get_deterministic_stateless Posix.os_path titles_engine w1 w2)
    as (Hout & _ & Hbody & _ & _); [reflexivity | reflexivity |].
  split; [exact Hout | exact Hbody].
Defined.


Example root_path_dispatched :
  @find_handler Webapp.matcher (url_mapping application) "/"
  = Some MainHandler.
Proof. reflexivity. Qed.

Example other_path_not_found :
  @find_handler Webapp.matcher (url_mapping application) "/admin" = None.
Proof. reflexivity. Qed.

(** * Further properties of the render helper *)

(** ** Strings *)

Lemma append_cons c (s t : string) : String c s ++ t = String c (s ++ t).
Proof. reflexivity. Qed.

Lemma append_empty_l (s : string) : "" ++ s = s.
Proof. reflexivity. Qed.

Lemma append_empty_r (s : string) : s ++ "" = s.
Proof.
  induction s as [|c s IH]; [done|]. by rewrite append_cons, IH.
Qed.

Lemma append_assoc (s1 s2 s3 : string) : (s1 ++ s2) ++ s3 = s1 ++ s2 ++ s3.
Proof.
  induction s1 as [|c s1 IH]; [done|]. by rewrite !append_cons, IH.
Qed.

Lemma concat_snoc (l : list string) (s : string) :
  String.concat "" (l ++ [s]) = String.concat "" l ++ s.
Proof.
  induction l as [|x l IH]; [done|].
  change ((x :: l) ++ [s])%list with (x :: (l ++ [s]))%list.
  destruct l as [|y l]; [done|].
  change (String.concat "" (x :: (y :: l) ++ [s]))
    with (x ++ "" ++ String.concat "" ((y :: l) ++ [s])).
  rewrite IH.
  change (String.concat "" (x :: y :: l))
    with (x ++ "" ++ String.concat "" (y :: l)).
  rewrite !append_empty_l. by rewrite append_assoc.
Qed.

Lemma response_body_written s w :
  response_body (written s w) = response_body w ++ s.
Proof. unfold response_body, written; simpl. apply concat_snoc. Qed.

Lemma response_body_called path vals w :
  response_body (called path vals w) = response_body w.
Proof. reflexivity. Qed.

(** ** What the engine receives, what the response keeps *)

Section RenderTemplateMore.
Context {ospath : OsPath} {engine : TemplateEngine}.

(** X1: a truthy [template_values], of whatever type (a non-empty mapping,
    but also a non-empty list or string, a non-zero number, [True]), reaches
    the engine with its value unchanged. *)
Theorem truthy_values_forwarded w template_file v :
  truthy v = true →
  engine_calls (render_template template_file (Some v) w).2
  = (engine_calls w ++ [(template_path (process w) template_file, v)])%list.
Proof.
  intros Htrue. rewrite render_template_run. simpl default.
  rewrite (forwarded_values_truthy _ Htrue).
  by destruct (template_render _ _).
Qed.

(** X2: whatever the caller passes, the engine never receives a false value
    other than the empty list: not [None], not an empty mapping or string,
    not zero or [False]. *)
Theorem engine_never_receives_falsy w template_file template_values :
  ∃ path v,
    last (engine_calls (render_template template_file template_values w).2)
    = Some (path, v)
    ∧ (v = PyList [] ∨ truthy v = true)
    ∧ v ≠ PyNone ∧ v ≠ PyDict ∅ ∧ v ≠ PyStr "".
Proof.
  exists (template_path (process w) template_file),
         (forwarded_values (default PyNone template_values)).
  split.
  - rewrite render_template_run.
    destruct (template_render _ _); simpl; apply last_snoc.
  - unfold forwarded_values.
    destruct (truthy (default PyNone template_values)) eqn:Htruthy; simpl.
    + repeat split; [by right | | |]; intros Heq; by rewrite Heq in Htruthy.
    + repeat split; [by left | | |]; discriminate.
Qed.

(** X3: the helper only appends to the response: the body after the call is
    the body before it followed by the engine's output (by nothing when the
    engine raises), and the status of the response is left alone. *)
Theorem render_template_appends w template_file template_values :
  let r := render_template template_file template_values w in
  response_body r.2
  = response_body w
    ++ output_of (template_render
                    (template_path (process w) template_file)
                    (forwarded_values (default PyNone template_values)))
  ∧ status (response (self r.2)) = status (response (self w)).
Proof.
  intros r. subst r. rewrite render_template_run.
  destruct (template_render _ _) as [s|e]; simpl.
  - by rewrite response_body_written, response_body_called.
  - by rewrite response_body_called, append_empty_r.
Qed.

(** X4: two calls of the helper in a row call the engine twice, in that
    order, and the body holds both outputs in that order; when the second
    call raises after the first returned, the exception is that of the second
    and the output of the first stays in the body. *)
Theorem render_template_twice w file1 values1 file2 values2 s1 :
  let path1 := template_path (process w) file1 in
  let vals1 := forwarded_values (default PyNone values1) in
  let path2 := template_path (process w) file2 in
  let vals2 := forwarded_values (default PyNone values2) in
  template_render path1 vals1 = Returned s1 →
  let r := (render_template file1 values1;;
            render_template file2 values2) w in
  engine_calls r.2
  = (engine_calls w ++ [(path1, vals1); (path2, vals2)])%list
  ∧ response_body r.2
    = response_body w ++ s1 ++ output_of (template_render path2 vals2)
  ∧ r.1 = match template_render path2 vals2 with
          | Returned _ => Returned PyNone
          | Raised e => Raised e
          end.
Proof.
  intros path1 vals1 path2 vals2 Hfirst r. subst r.
  unfold mbind, M_bind, bind.
  rewrite render_template_run. fold path1 vals1. rewrite Hfirst.
  rewrite render_template_run.
  change (template_path (process (written s1 (called path1 vals1 w))) file2)
    with path2.
  fold vals2.
  destruct (template_render path2 vals2) as [s2|e]; simpl.
  - repeat (rewrite response_body_written || rewrite response_body_called).
    split; [by rewrite <- app_assoc | by rewrite append_assoc].
  - repeat (rewrite response_body_written || rewrite response_body_called).
    split; [by rewrite <- app_assoc | by rewrite append_empty_r].
Qed.

End RenderTemplateMore.

(** ** The template path under POSIX path rules *)

Lemma list_ascii_of_string_app (s t : string) :
  String.list_ascii_of_string (s ++ t)
  = (String.list_ascii_of_string s ++ String.list_ascii_of_string t)%list.
Proof.
  induction s as [|c s IH]; [done|].
  rewrite append_cons. simpl. by rewrite IH.
Qed.

Lemma skip_while_all f l :
  forallb f l = true → Posix.skip_while f l = [].
Proof.
  induction l as [|c l IH]; [done|]. simpl.
  destruct (f c); [exact IH | discriminate].
Qed.

Lemma skip_while_stop f l c l' :
  forallb f l = true → f c = false →
  Posix.skip_while f (l ++ c :: l') = c :: l'.
Proof.
  intros Hall Hc. induction l as [|a l IH]; simpl.
  - by rewrite Hc.
  - simpl in Hall. destruct (f a); [by apply IH | discriminate].
Qed.

Lemma forallb_rev {A} (f : A → bool) l : forallb f (rev l) = forallb f l.
Proof.
  induction l as [|a l IH]; [done|]. simpl.
  rewrite forallb_app, IH. simpl. destruct (f a), (forallb f l); done.
Qed.

Lemma no_slash_forallb s :
  has_slash s = false →
  forallb (λ c, negb (Posix.is_slash c)) (String.list_ascii_of_string s) = true.
Proof.
  unfold has_slash. induction (String.list_ascii_of_string s) as [|c l IH];
    [done|]. simpl.
  destruct (Posix.is_slash c); [discriminate | exact IH].
Qed.

Lemma endswith_slash_app s t :
  t ≠ "" → Posix.endswith_slash (s ++ t) = Posix.endswith_slash t.
Proof.
  intros Ht. induction s as [|c s IH]; [done|].
  rewrite append_cons. simpl.
  destruct (s ++ t) eqn:Hst; [|exact IH].
  destruct s; [|discriminate]. by rewrite append_empty_l in Hst.
Qed.

Lemma endswith_slash_last d :
  d ≠ "" → Posix.endswith_slash d = false →
  ∃ l c, String.list_ascii_of_string d = (l ++ [c])%list
         ∧ Posix.is_slash c = false.
Proof.
  induction d as [|a d IH]; [done|]. intros _ Hend.
  destruct d as [|b d].
  - by exists [], a.
  - destruct IH as (l & c & Hl & Hc); [done | exact Hend |].
    exists (a :: l), c. split; [|exact Hc].
    change (String.list_ascii_of_string (String a (String b d)))
      with (a :: String.list_ascii_of_string (String b d)).
    by rewrite Hl.
Qed.

Lemma append_nonempty_eqb s t : t ≠ "" → String.eqb (s ++ t) "" = false.
Proof.
  intros Ht. destruct s; [|done].
  rewrite append_empty_l. by destruct t.
Qed.

(** [posixpath.dirname] of a name without a slash is empty. *)
Lemma dirname_no_slash p : has_slash p = false → Posix.dirname p = "".
Proof.
  intros Hp. unfold Posix.dirname.
  rewrite skip_while_all; [done|].
  rewrite forallb_rev. by apply no_slash_forallb.
Qed.

(** [posixpath.dirname] of [d/name] is [d], and [/] when [d] is empty. *)
Lemma dirname_dir_name d name :
  Posix.endswith_slash d = false → has_slash name = false →
  Posix.dirname (d ++ "/" ++ name) = if String.eqb d "" then "/" else d.
Proof.
  intros Hend Hname. apply no_slash_forallb in Hname.
  assert (Hhead :
    Posix.skip_while (λ c, negb (Posix.is_slash c))
      (rev (String.list_ascii_of_string (d ++ "/" ++ name)))
    = "/"%char :: rev (String.list_ascii_of_string d)).
  { rewrite list_ascii_of_string_app, rev_app_distr.
    change (String.list_ascii_of_string ("/" ++ name))
      with ("/"%char :: String.list_ascii_of_string name).
    simpl rev at 1. rewrite <- app_assoc.
    apply skip_while_stop; [by rewrite forallb_rev | done]. }
  unfold Posix.dirname. rewrite Hhead. clear Hhead.
  destruct (decide (d = "")) as [->|Hd]; [done|].
  destruct (endswith_slash_last d Hd Hend) as (l & c & Hl & Hc).
  rewrite (proj2 (String.eqb_neq d "") Hd).
  rewrite Hl, rev_unit.
  change (rev ("/"%char :: c :: rev l))
    with ((rev (rev l) ++ [c]) ++ ["/"%char])%list.
  rewrite rev_involutive, !forallb_app. simpl forallb. rewrite Hc.
  rewrite !andb_false_r. simpl negb. cbv iota.
  rewrite rev_unit. simpl Posix.skip_while.
  rewrite rev_unit. simpl Posix.skip_while. rewrite Hc.
  change (rev (c :: rev l)) with (rev (rev l) ++ [c])%list.
  rewrite rev_involutive, <- Hl.
  apply String.string_of_list_ascii_of_string.
Qed.

Lemma join_under_dir d template_file :
  d ≠ "" → Posix.endswith_slash d = false →
  Posix.startswith_slash template_file = false →
  Posix.join d ["templates"; template_file]
  = d ++ "/templates/" ++ template_file.
Proof.
  intros Hd Hend Hfile. unfold Posix.join. simpl fold_left.
  unfold Posix.join_step at 2. simpl Posix.startswith_slash.
  rewrite (proj2 (String.eqb_neq d "") Hd), Hend. simpl orb. cbv iota.
  unfold Posix.join_step. rewrite Hfile.
  rewrite append_nonempty_eqb by done.
  rewrite endswith_slash_app by done.
  simpl. by rewrite !append_assoc.
Qed.

Lemma render_template_path `{OsPath} `{TemplateEngine}
    w template_file template_values :
  fst <$> last (engine_calls
                  (render_template template_file template_values w).2)
  = Some (template_path (process w) template_file).
Proof.
  rewrite render_template_run.
  destruct (template_render _ _); simpl; by rewrite last_snoc.
Qed.

Section PosixPaths.
Context {engine : TemplateEngine}.

(** X5: under POSIX path rules, when [__file__] is [d/name] ([name] without a
    slash, [d] not ending in one) and the file name does not start with a
    slash, the engine is given [d/templates/] followed by the file name. *)
Theorem posix_path_in_templates_dir w d name template_file template_values :
  module_file (process w) = d ++ "/" ++ name →
  Posix.endswith_slash d = false →
  has_slash name = false →
  Posix.startswith_slash template_file = false →
  fst <$> last (engine_calls
                  (@render_template Posix.os_path engine
                     template_file template_values w).2)
  = Some (d ++ "/templates/" ++ template_file).
Proof.
  intros Hfile Hend Hname Htf.
  rewrite render_template_path. f_equal.
  unfold template_path. rewrite Hfile.
  change (Posix.join (Posix.dirname (d ++ "/" ++ name))
            ["templates"; template_file]
          = d ++ "/templates/" ++ template_file).
  rewrite dirname_dir_name by done.
  destruct (decide (d = "")) as [->|Hd].
  - unfold Posix.join, Posix.join_step; simpl. by rewrite Htf.
  - rewrite (proj2 (String.eqb_neq d "") Hd). by apply join_under_dir.
Qed.

(** X6: under POSIX path rules a file name that starts with a slash is handed
    to the engine as it is: neither the directory of the handler nor
    [templates] is part of the path. *)
Theorem posix_absolute_name_escapes w template_file template_values :
  Posix.startswith_slash template_file = true →
  fst <$> last (engine_calls
                  (@render_template Posix.os_path engine
                     template_file template_values w).2)
  = Some template_file.
Proof.
  intros Htf. rewrite render_template_path. f_equal.
  unfold template_path.
  change (Posix.join_step
            (Posix.join_step (Posix.dirname (module_file (process w)))
               "templates")
            template_file = template_file).
  unfold Posix.join_step at 1. by rewrite Htf.
Qed.

(** X7: under POSIX path rules, when [__file__] holds no slash (the module
    was started by its bare file name) the engine is given the relative path
    [templates/] followed by the file name. *)
Theorem posix_relative_module_file w template_file template_values :
  has_slash (module_file (process w)) = false →
  Posix.startswith_slash template_file = false →
  fst <$> last (engine_calls
                  (@render_template Posix.os_path engine
                     template_file template_values w).2)
  = Some ("templates/" ++ template_file).
Proof.
  intros Hfile Htf. rewrite render_template_path. f_equal.
  unfold template_path.
  change (Posix.join (Posix.dirname (module_file (process w)))
            ["templates"; template_file]
          = "templates/" ++ template_file).
  rewrite dirname_no_slash by done.
  unfold Posix.join, Posix.join_step; simpl. by rewrite Htf.
Qed.

End PosixPaths.

(** ** The further properties on a deployment *)

Lemma truthy_values_forwarded_witness :
  truthy (PyStr "plain text") = true
  ∧ engine_calls
      (@render_template Posix.os_path path_engine "grid.html"
         (Some (PyStr "plain text")) (fresh_world root_request)).2
    = [("/srv/app/closure/examples/templates/grid.html", PyStr "plain text")].
Proof.
  split; [reflexivity|].
  apply (@truthy_values_forwarded Posix.os_path path_engine
           (fresh_world root_request) "grid.html" (PyStr "plain text")).
  reflexivity.
Defined.

Lemma render_template_twice_witness :
  let engine := grid_engine in
  let r := (@render_template Posix.os_path engine "grid.html" None;;
            @render_template Posix.os_path engine "nope.html" None)
             (fresh_world root_request) in
  @template_render engine
    (@template_path Posix.os_path (process (fresh_world root_request))
       "grid.html")
    (forwarded_values (default PyNone None)) = Returned "<grid>"
  ∧ response_body r.2 = "<grid>"
  ∧ r.1 = Raised (PyExn "TemplateDoesNotExist"
                    "/srv/app/closure/examples/templates/nope.html").
Proof.
  intros engine r. split; [reflexivity|].
  destruct (@render_template_twice Posix.os_path engine
              (fresh_world root_request) "grid.html" None "nope.html" None
              "<grid>") as (_ & Hbody & Hout); [reflexivity|].
  split; [exact Hbody | exact Hout].
Defined.

Lemma posix_path_in_templates_dir_witness :
  module_file (process (fresh_world root_request))
  = "/srv/app/closure/examples" ++ "/" ++ "main.py"
  ∧ Posix.endswith_slash "/srv/app/closure/examples" = false
  ∧ has_slash "main.py" = false
  ∧ Posix.startswith_slash "grid.html" = false
  ∧ fst <$> last (engine_calls
                    (@render_template Posix.os_path missing_engine
                       "grid.html" None (fresh_world root_request)).2)
    = Some ("/srv/app/closure/examples" ++ "/templates/" ++ "grid.html").
Proof.
  repeat (split; [reflexivity|]).
  apply (@posix_path_in_templates_dir missing_engine
           (fresh_world root_request) "/srv/app/closure/examples" "main.py"
           "grid.html" None); reflexivity.
Defined.

Lemma posix_absolute_name_escapes_witness :
  Posix.startswith_slash "/etc/motd" = true
  ∧ fst <$> last (engine_calls
                    (@render_template Posix.os_path path_engine
                       "/etc/motd" None (fresh_world root_request)).2)
    = Some "/etc/motd".
Proof.
  split; [reflexivity|].
  apply (@posix_absolute_name_escapes path_engine
           (fresh_world root_request) "/etc/motd" None); reflexivity.
Defined.

Lemma posix_relative_module_file_witness :
  has_slash (module_file (process script_world)) = false
  ∧ Posix.startswith_slash "main.html" = false
  ∧ fst <$> last (engine_calls
                    (@render_template Posix.os_path path_engine
                       "main.html" None script_world).2)
    = Some ("templates/" ++ "main.html").
Proof.
  split; [reflexivity|]. split; [reflexivity|].
  apply (@posix_relative_module_file path_engine script_world
           "main.html" None); reflexivity.
Defined.
